(** * JeuxBoard: role-based access to projects and modules

    A shallow embedding of the access decisions of the JeuxBoard project
    tracker: the per-field edit check of the module table
    (src/components/ModuleTable.tsx), the navigation and page guards
    (Sidebar, App, RoleProtected, Projects), the member screen (Members),
    and the row-level policies and foreign keys of the schema
    (supabase/migrations/20250805103937_little_queen.sql). *)

From stdpp Require Import base strings list sorting gmap.

Open Scope string_scope.

(** ** The fragment of JavaScript the screens rely on *)

Module JS.

(** A JSON value as the data client hands it to a screen: a column that is
    NULL, a text/uuid/timestamp/enum column, or an embedded row. A key that
    is missing from an object reads as [undefined], which is [None] below. *)
Inductive value : Type :=
| VNull
| VString (s : string)
| VObject (o : list (string * string)).

#[export] Instance value_eq_dec : EqDecision value.
Proof. solve_decision. Defined.

(** Objects are maps from property names to values; [{...o, [k]: v}] is
    insertion. *)
Abbreviation object := (gmap string value).

(** [s === v] for a string [s]: only an equal string is strictly equal. *)
Definition strict_eq_string (s : string) (v : option value) : bool :=
  match v with
  | Some (VString t) => bool_decide (s = t)
  | _ => false
  end.

Inductive error : Type := TypeError.

(** The outcome of evaluating an expression: a value or a thrown error. *)
Inductive completion (A : Type) : Type :=
| Normal (a : A)
| Throw (e : error).
Arguments Normal {A} a.
Arguments Throw {A} e.

#[export] Instance completion_ret : MRet completion := λ A a, Normal a.

#[export] Instance completion_bind : MBind completion := λ A B k c,
  match c with
  | Normal a => k a
  | Throw e => Throw e
  end.

(** The properties every object literal inherits from [Object.prototype]. A
    property read [o[k]] that misses the own properties finds these. *)
Definition object_prototype_keys : list string :=
  [ "constructor"; "__proto__"; "hasOwnProperty"; "isPrototypeOf";
    "propertyIsEnumerable"; "toLocaleString"; "toString"; "valueOf";
    "__defineGetter__"; "__defineSetter__"; "__lookupGetter__";
    "__lookupSetter__" ].

(** What a read of a [{ [key: string]: string[] }] literal can produce: one
    of its arrays, or an inherited member (a function, or the prototype
    itself), which is truthy and has no [includes] method. *)
Inductive property : Type :=
| Arr (xs : list string)
| Inherited.

(** [o[k]]; [None] is [undefined]. *)
Definition get (own : gmap string (list string)) (k : string) : option property :=
  match own !! k with
  | Some xs => Some (Arr xs)
  | None => if bool_decide (k ∈ object_prototype_keys) then Some Inherited else None
  end.

(** [p || []]: an array is truthy even when empty, so only [undefined]
    falls through to the empty array. *)
Definition or_empty (p : option property) : property := default (Arr []) p.

(** [p.includes(x)]. On an inherited member the method is missing and the
    call throws. *)
Definition includes (p : property) (x : string) : completion bool :=
  match p with
  | Arr xs => Normal (bool_decide (x ∈ xs))
  | Inherited => Throw TypeError
  end.

End JS.

Export JS.

(** ** Records of the schema *)

(** A row of [users]; the signed-in user's [profile] is such a row. The
    avatar and the two timestamps take part in no decision and are left
    out. *)
Record User : Type := mkUser {
  user_id : string;
  user_auth_id : option string;
  user_name : string;
  user_email : string;
  user_role : string;
}.

#[export] Instance User_eq_dec : EqDecision User.
Proof. solve_decision. Defined.

(** ** The store: tables, foreign keys and row-level policies *)

Module Store.

Inductive project_status : Type := not_started | in_progress | blocked | done.

(** A row of [projects]. *)
Record Project : Type := mkProject {
  project_id : string;
  project_title : string;
  project_stack : string;
  project_sprint : string;
  project_notes : option string;
  project_state : project_status;
  project_created_by : option string;
}.

(** A row of [project_members]; both references are nullable columns. *)
Record ProjectMember : Type := mkProjectMember {
  member_id : string;
  member_project_id : option string;
  member_user_id : option string;
  member_role_in_project : string;
}.

(** The columns of [project_modules]. A row is kept as the JSON object the
    data client reads and writes, one key per column. *)
Definition project_modules_columns : list string :=
  [ "id"; "project_id"; "module_name"; "platform_stack"; "assigned_dev_id";
    "design_locked_date"; "dev_start_date"; "self_qa_date";
    "lead_signoff_date"; "pm_review_date"; "cto_review_status";
    "client_ready_status"; "status"; "eta"; "sprint"; "notes";
    "created_at"; "updated_at" ].

Record Database : Type := mkDatabase {
  users : list User;
  projects : list Project;
  project_modules : list object;
  project_members : list ProjectMember;
}.

(** The rows every migration inserts into [roles]. *)
Definition role_names : list string :=
  ["admin"; "dev"; "pm"; "cto"; "lead"; "designer"].

(** A nullable text or uuid column of a module row. *)
Definition column (row : object) (c : string) : option string :=
  match row !! c with
  | Some (VString s) => Some s
  | _ => None
  end.

(** SQL [a = b] in a WHERE position: NULL on either side is not true. *)
Definition sql_eq (a b : option string) : bool :=
  match a, b with
  | Some x, Some y => bool_decide (x = y)
  | _, _ => false
  end.

(** SQL [x IN (...)] over literals. *)
Definition sql_in (x : string) (xs : list string) : bool := bool_decide (x ∈ xs).

(** What an UPDATE does with one row under a policy that has USING and no
    WITH CHECK: a row the expression rejects is left alone without an
    error; the new version of a visible row must pass the same expression,
    or the statement fails. *)
Inductive update_outcome : Type := Applied | Skipped | Refused.

Definition rls_update {Row} (policy : Row → bool) (old new : Row) : update_outcome :=
  if policy old then (if policy new then Applied else Refused) else Skipped.

(** *** Row-level security ("Complete JeuxBoard Schema with RLS Policies")

    Every policy is granted TO authenticated, so [auth.uid()] is the
    non-null identity [uid] of the session. *)
Section Policies.
Variable db : Database.
Variable uid : string.

(** [EXISTS (SELECT 1 FROM users WHERE users.auth_id = auth.uid() AND cond)] *)
Definition exists_user (cond : User → bool) : bool :=
  existsb (λ u, sql_eq (user_auth_id u) (Some uid) && cond u) (users db).

Definition is_admin (u : User) : bool := bool_decide (user_role u = "admin").

(** [EXISTS (SELECT 1 FROM project_members WHERE project_id = pid AND user_id = users.id)];
    also [users.id IN (SELECT user_id FROM project_members WHERE project_id = pid)]. *)
Definition is_member (pid : option string) (u : User) : bool :=
  existsb (λ m, sql_eq (member_project_id m) pid
                && sql_eq (member_user_id m) (Some (user_id u)))
          (project_members db).

(** "Users can update their own profile": FOR UPDATE USING. *)
Definition users_update_using (row : User) : bool :=
  sql_eq (user_auth_id row) (Some uid).

(** "Only admins can delete users": FOR DELETE USING. *)
Definition users_delete_using (row : User) : bool := exists_user is_admin.

(** "Users can read projects they're members of or all if admin/pm/cto". *)
Definition projects_select_using (row : Project) : bool :=
  exists_user (λ u, sql_in (user_role u) ["admin"; "pm"; "cto"]
                    || is_member (Some (project_id row)) u).

(** "Only admins can create projects": FOR INSERT WITH CHECK. *)
Definition projects_insert_check (row : Project) : bool := exists_user is_admin.

(** "Admins and PMs can update projects". *)
Definition projects_update_using (row : Project) : bool :=
  exists_user (λ u, sql_in (user_role u) ["admin"; "pm"]).

(** "Users can read modules from their projects". *)
Definition project_modules_select_using (row : object) : bool :=
  exists_user (λ u, sql_in (user_role u) ["admin"; "pm"; "cto"]
                    || is_member (column row "project_id") u
                    || sql_eq (column row "assigned_dev_id") (Some (user_id u))).

(** "Admins and PMs can create modules". *)
Definition project_modules_insert_check (row : object) : bool :=
  exists_user (λ u, sql_in (user_role u) ["admin"; "pm"]).

(** "Role-based module updates". *)
Definition project_modules_update_using (row : object) : bool :=
  exists_user (λ u,
    bool_decide (user_role u = "admin")
    || (bool_decide (user_role u = "pm") && is_member (column row "project_id") u)
    || (bool_decide (user_role u = "dev")
        && sql_eq (Some (user_id u)) (column row "assigned_dev_id"))
    || sql_in (user_role u) ["lead"; "cto"; "designer"]).

(** "Only admins can delete modules". *)
Definition project_modules_delete_using (row : object) : bool := exists_user is_admin.

End Policies.

(** *** Statements

    The client's requests run as plain statements under the policies
    above. A statement whose WHERE clause reads the table is subject to
    the SELECT policy of that table as well. *)

(** "Users can read all user profiles": USING (true). *)
Definition users_select_using (row : User) : bool := true.

(** [UPDATE users SET name = .., role = .. WHERE id = target]. The session
    identity is not among the assigned columns, so the new version of a
    row passes the policy whenever the old one does. *)
Definition update_users (db : Database) (uid target name role : string) : Database :=
  {| users :=
       (λ row,
          if bool_decide (user_id row = target)
             && users_select_using row && users_update_using uid row
          then {| user_id := user_id row; user_auth_id := user_auth_id row;
                  user_name := name; user_email := user_email row;
                  user_role := role |}
          else row) <$> users db;
     projects := projects db;
     project_modules := project_modules db;
     project_members := project_members db |}.

(** [assigned_dev_id ... ON DELETE SET NULL] *)
Definition clear_assigned_dev (target : string) (row : object) : object :=
  if sql_eq (column row "assigned_dev_id") (Some target)
  then <["assigned_dev_id" := VNull]> row else row.

(** [created_by ... ON DELETE SET NULL] *)
Definition clear_created_by (target : string) (p : Project) : Project :=
  if sql_eq (project_created_by p) (Some target)
  then {| project_id := project_id p; project_title := project_title p;
          project_stack := project_stack p; project_sprint := project_sprint p;
          project_notes := project_notes p; project_state := project_state p;
          project_created_by := None |}
  else p.

(** [DELETE FROM users WHERE id = target] with the actions of the foreign
    keys that reference [users(id)]. *)
Definition delete_users (db : Database) (uid target : string) : Database :=
  if existsb (λ row, bool_decide (user_id row = target)
                     && users_select_using row && users_delete_using db uid row)
             (users db)
  then
    {| users := filter (λ row, user_id row ≠ target) (users db);
       projects := clear_created_by target <$> projects db;
       project_modules := clear_assigned_dev target <$> project_modules db;
       project_members :=
         filter (λ m, member_user_id m ≠ Some target) (project_members db) |}
  else db.

(** [DELETE FROM projects WHERE id = target], as the owner of the schema
    runs it (no policy of [projects] covers DELETE). Both references to
    [projects(id)] are declared ON DELETE CASCADE. *)
Definition delete_projects (db : Database) (target : string) : Database :=
  {| users := users db;
     projects := filter (λ p, project_id p ≠ target) (projects db);
     project_modules :=
       filter (λ row, column row "project_id" ≠ Some target) (project_modules db);
     project_members :=
       filter (λ m, member_project_id m ≠ Some target) (project_members db) |}.


Definition live_user (db : Database) (ref : option string) : Prop :=
  ∀ uid, ref = Some uid → ∃ u, u ∈ users db ∧ user_id u = uid.



(** "Users can read project members" and, for SELECT as for every command,
    "Only admins can manage project members"; permissive policies add up. *)
Definition project_members_select_using (db : Database) (uid : string)
    (m : ProjectMember) : bool :=
  exists_user db uid (λ u, sql_in (user_role u) ["admin"; "pm"; "cto"]
                           || sql_eq (member_user_id m) (Some (user_id u)))
  || exists_user db uid is_admin.


(** [SET col = payload.col] for every column the payload names; a key that
    names no column does not reach the table. *)
Definition set_columns (payload row : object) : object :=
  filter (λ kv, kv.1 ∈ project_modules_columns) payload ∪ row.

(** The trigger [update_project_modules_updated_at], BEFORE UPDATE FOR EACH
    ROW: [NEW.updated_at = CURRENT_TIMESTAMP]. *)
Definition update_updated_at_column (now : string) (new : object) : object :=
  <["updated_at" := VString now]> new.

(** One row of [UPDATE project_modules SET .. WHERE id = target]; [None]
    when the new version of the row fails the policy and the statement is
    aborted. *)
Definition update_project_modules_row (db : Database) (uid now : string)
    (payload : object) (target : string) (row : object) : option object :=
  if sql_eq (column row "id") (Some target)
     && project_modules_select_using db uid row
     && project_modules_update_using db uid row
  then
    let new := update_updated_at_column now (set_columns payload row) in
    if project_modules_update_using db uid new then Some new else None
  else Some row.

Definition update_project_modules (db : Database) (uid now : string)
    (payload : object) (target : string) : option Database :=
  rows ← mapM (update_project_modules_row db uid now payload target)
              (project_modules db);
  Some {| users := users db; projects := projects db;
          project_modules := rows; project_members := project_members db |}.

End Store.

Export Store.

(** ** The module table screen *)

Module ModuleTable.

(** The table of [canEditField]. *)
Definition fieldPermissions : gmap string (list string) :=
  list_to_map
    [ ("module_name", ["admin"]);
      ("platform_stack", ["admin"]);
      ("assigned_dev_id", ["admin"]);
      ("design_locked_date", ["designer"; "admin"]);
      ("dev_start_date", ["dev"; "admin"]);
      ("self_qa_date", ["dev"; "admin"]);
      ("lead_signoff_date", ["lead"; "admin"]);
      ("pm_review_date", ["pm"; "admin"]);
      ("cto_review_status", ["cto"; "admin"]);
      ("client_ready_status", ["pm"; "admin"]);
      ("status", ["dev"; "pm"; "admin"]);
      ("eta", ["pm"; "admin"]);
      ("sprint", ["pm"; "admin"]);
      ("notes", ["admin"; "pm"; "dev"; "cto"; "lead"; "designer"]) ].

Definition canEditField (profile : option User) (field : string) (module : object)
  : completion bool :=
  match profile with
  | None => Normal false
  | Some profile =>
    let allowedRoles := or_empty (get fieldPermissions field) in
    if bool_decide (field = "dev_start_date") || bool_decide (field = "self_qa_date") then
      inRole ← includes allowedRoles (user_role profile);
      Normal (inRole || strict_eq_string (user_id profile) (module !! "assigned_dev_id"))
    else
      includes allowedRoles (user_role profile)
  end.

(** The columns picked by [select('id, name, role')]. *)
Record Assignee : Type := mkAssignee {
  assignee_id : string;
  assignee_name : string;
  assignee_role : string;
}.

Definition assignee_of (u : User) : Assignee :=
  {| assignee_id := user_id u; assignee_name := user_name u;
     assignee_role := user_role u |}.

(** What the store answers to the query of [fetchUsers]:
    [from('users').select('id, name, role').in('role', ['dev', 'lead']).order('name')].
    The collation of ORDER BY is the store's and is a parameter here. *)
Section UsersQuery.
Context (name_le : relation string) `{!RelDecision name_le}.

Definition by_name : relation Assignee :=
  λ a b, name_le (assignee_name a) (assignee_name b).

#[local] Instance by_name_dec : RelDecision by_name.
Proof. intros a b. unfold by_name. apply _. Defined.

Definition users_query (db : Database) : list Assignee :=
  merge_sort by_name
    (assignee_of <$>
       filter (λ u, users_select_using u = true
                    ∧ sql_in (user_role u) ["dev"; "lead"] = true)
              (Store.users db)).
End UsersQuery.

(** The view state of the component. *)
Record state : Type := mkState {
  modules : list object;
  users : list Assignee;
  editingId : option string;
  editData : object;
}.

Definition initial : state :=
  {| modules := []; users := []; editingId := None; editData := ∅ |}.

(** [fetchUsers]: a failed request is logged and leaves the list as it is. *)
Definition fetchUsers (response : option (list Assignee)) (st : state) : state :=
  match response with
  | Some data =>
    {| modules := modules st; users := data;
       editingId := editingId st; editData := editData st |}
  | None => st
  end.

(** The options of the select rendered for [assigned_dev_id], as pairs of
    value and label. *)
Definition assigned_dev_options (st : state) : list (string * string) :=
  ("", "Unassigned") :: ((λ user, (assignee_id user, assignee_name user)) <$> users st).

Definition handleEditModule (module : object) (st : state) : state :=
  {| modules := modules st; users := users st;
     editingId := column module "id"; editData := module |}.

(** The [onChange] handler of every editable cell:
    [setEditData({ ...editData, [field]: e.target.value })]. *)
Definition onChange (st : state) (change : string * string) : state :=
  {| modules := modules st; users := users st; editingId := editingId st;
     editData := <[change.1 := VString change.2]> (editData st) |}.

(** A request handed to the data client. *)
Inductive request : Type :=
| Update (table : string) (payload : object) (id : string).

(** The request [handleSaveModule] issues; [now] is
    [new Date().toISOString()]. No request leaves when [editingId] is
    falsy. *)
Definition handleSaveModule (now : string) (st : state) : list request :=
  match editingId st with
  | None => []
  | Some id =>
    if bool_decide (id = "") then []
    else [Update "project_modules" (<["updated_at" := VString now]> (editData st)) id]
  end.

(** Whether [renderEditableCell] renders an input for the cell. *)
Definition renders_input (profile : option User) (st : state) (field : string)
    (module : object) : completion bool :=
  let isEditing :=
    match editingId st, column module "id" with
    | Some a, Some b => bool_decide (a = b)
    | _, _ => false
    end in
  canEdit ← canEditField profile field module;
  Normal (isEditing && canEdit).

(** The fields the table renders a cell for. *)
Definition rendered_fields : list string :=
  [ "module_name"; "platform_stack"; "assigned_dev_id"; "design_locked_date";
    "dev_start_date"; "self_qa_date"; "lead_signoff_date"; "pm_review_date";
    "cto_review_status"; "client_ready_status"; "status"; "eta"; "sprint" ].

End ModuleTable.

(** ** Navigation and page guards *)

Module Sidebar.

Record item : Type := mkItem {
  id : string;
  label : string;
  roles : list string;
}.

Definition menuItems : list item :=
  [ mkItem "dashboard" "Dashboard" ["admin"; "dev"; "pm"; "cto"; "lead"; "designer"];
    mkItem "projects" "Projects" ["admin"; "dev"; "pm"; "cto"; "lead"; "designer"];
    mkItem "add-project" "Add Project" ["admin"; "pm"];
    mkItem "members" "Members" ["admin"];
    mkItem "analytics" "Analytics" ["admin"; "pm"; "cto"] ].

(** [profile && item.roles.includes(profile.role)] *)
Definition offered (profile : option User) (item : item) : bool :=
  match profile with
  | Some profile => bool_decide (user_role profile ∈ roles item)
  | None => false
  end.

Definition filteredItems (profile : option User) : list item :=
  filter (λ item, offered profile item = true) menuItems.

End Sidebar.

Module App.

Inductive page : Type :=
| Dashboard | Projects | AddProject | Members | Analytics
| ProjectDetail (projectId : string) | NoProjectSelected.

Inductive rendered : Type :=
| Children (p : page)
| Fallback      (* "Access Denied" *)
| Spinner.

Definition RoleProtected (profile : option User) (loading : bool)
    (allowedRoles : list string) (children : page) : rendered :=
  if loading then Spinner
  else match profile with
       | None => Fallback
       | Some profile =>
         if bool_decide (user_role profile ∈ allowedRoles) then Children children
         else Fallback
       end.

Definition renderPage (profile : option User) (loading : bool)
    (currentPage : string) (selectedProjectId : option string) : rendered :=
  if bool_decide (currentPage = "dashboard") then Children Dashboard
  else if bool_decide (currentPage = "projects") then Children Projects
  else if bool_decide (currentPage = "add-project") then
    RoleProtected profile loading ["admin"] AddProject
  else if bool_decide (currentPage = "members") then
    RoleProtected profile loading ["admin"] Members
  else if bool_decide (currentPage = "analytics") then
    RoleProtected profile loading ["admin"; "pm"; "cto"] Analytics
  else if bool_decide (currentPage = "project-detail") then
    match selectedProjectId with
    | Some projectId =>
      if bool_decide (projectId = "") then Children NoProjectSelected
      else Children (ProjectDetail projectId)
    | None => Children NoProjectSelected
    end
  else Children Dashboard.

(** What [AppContent] puts on the screen; [user] is the signed-in auth
    identity. The shell shows the sidebar next to the current page. *)
Inductive screen : Type :=
| LoadingScreen
| SignIn
| SignUp
| Shell (menu : list Sidebar.item) (main : rendered).

Definition AppContent (user : option string) (profile : option User) (loading : bool)
    (authMode currentPage : string) (selectedProjectId : option string) : screen :=
  if loading then LoadingScreen
  else match user with
       | None => if bool_decide (authMode = "signin") then SignIn else SignUp
       | Some _ =>
         Shell (Sidebar.filteredItems profile)
               (renderPage profile loading currentPage selectedProjectId)
       end.

(** The "Add Project" button of the project list:
    [profile?.role === 'admin']. *)
Definition shows_add_project_button (profile : option User) : bool :=
  match profile with
  | Some profile => bool_decide (user_role profile = "admin")
  | None => false
  end.

End App.

(** ** The member screen *)

Module Members.

Record state : Type := mkState {
  editingId : option string;
  editData : option User;
}.

Definition initial : state := {| editingId := None; editData := None |}.

Definition handleEditUser (user : User) (st : state) : state :=
  {| editingId := Some (user_id user); editData := Some user |}.

Definition changeName (name : string) (st : state) : state :=
  {| editingId := editingId st;
     editData := (λ u, mkUser (user_id u) (user_auth_id u) name (user_email u)
                              (user_role u)) <$> editData st |}.

Definition changeRole (role : string) (st : state) : state :=
  {| editingId := editingId st;
     editData := (λ u, mkUser (user_id u) (user_auth_id u) (user_name u)
                              (user_email u) role) <$> editData st |}.

(** [handleSaveUser] run against the store by the session [uid]: the
    update of [name] and [role] of the row [editingId]. *)
Definition handleSaveUser (db : Database) (uid : string) (st : state) : Database :=
  match editingId st, editData st with
  | Some id, Some data =>
    if bool_decide (id = "") then db
    else update_users db uid id (user_name data) (user_role data)
  | _, _ => db
  end.

(** [handleDeleteUser] once the dialog is confirmed. *)
Definition handleDeleteUser (db : Database) (uid userId : string) : Database :=
  delete_users db uid userId.

End Members.


(** ** The project page *)

Module ProjectDetail.

(** [canEditProject] *)
Definition canEditProject (profile : option User) : bool :=
  match profile with
  | Some profile =>
    bool_decide (user_role profile = "admin") || bool_decide (user_role profile = "pm")
  | None => false
  end.


End ProjectDetail.

(** ** The project form *)

Module AddProject.

Record formData : Type := mkFormData {
  title : string;
  stack : string;
  sprint : string;
  notes : string;
  status : project_status;
  members : list string;
}.

Definition formData_initial : formData :=
  {| title := ""; stack := ""; sprint := ""; notes := "";
     status := not_started; members := [] |}.

Definition toggleMember (userId : string) (prev : formData) : formData :=
  {| title := title prev; stack := stack prev; sprint := sprint prev;
     notes := notes prev; status := status prev;
     members := if bool_decide (userId ∈ members prev)
                then filter (λ id, id ≠ userId) (members prev)
                else members prev ++ [userId] |}.

End AddProject.

(** ** The sign-up form *)

Module SignUp.

Record Role : Type := mkRole {
  id : string;
  name : string;
}.

(** The answer to [from('roles').select('id, name').order('name')]. *)
Inductive response : Type :=
| Threw                               (* the request itself threw *)
| Error                               (* [error] is set *)
| Data (data : option (list Role)).   (* [None] is [data: null] *)

Definition fallback : list Role :=
  [ mkRole "1" "admin"; mkRole "2" "dev"; mkRole "3" "pm";
    mkRole "4" "cto"; mkRole "5" "lead"; mkRole "6" "designer" ].

(** The [roles] that [fetchRoles] ends with. *)
Definition fetchRoles (r : response) : list Role :=
  match r with
  | Threw | Error => fallback
  | Data (Some (role :: rest)) => role :: rest
  | Data _ => fallback
  end.

End SignUp.


(** ** Vocabulary of the statements *)

(** The two fields of the assignee carve-out of [canEditField]. *)
Definition carve_out (field : string) : bool :=
  bool_decide (field = "dev_start_date") || bool_decide (field = "self_qa_date").

(** The profile of a session: the one row of [users] that carries its
    identity (sign-up pairs a profile with one auth identity). *)
Definition profile_of (db : Database) (uid : string) (actor : User) : Prop :=
  actor ∈ Store.users db
  ∧ user_auth_id actor = Some uid
  ∧ ∀ u, u ∈ Store.users db → user_auth_id u = Some uid → u = actor.

(** ** Sample data *)

Module Sample.

Definition admin : User := mkUser "u0" (Some "a0") "Admin User" "admin@jeux.com" "admin".
Definition dana : User := mkUser "u1" (Some "a1") "Dana" "dana@jeux.com" "dev".
Definition dee : User := mkUser "u2" (Some "a2") "Dee" "dee@jeux.com" "dev".
Definition pat : User := mkUser "u3" (Some "a3") "Pat" "pat@jeux.com" "pm".
Definition des : User := mkUser "u4" (Some "a4") "Des" "des@jeux.com" "designer".

Definition gateway : Project :=
  mkProject "p1" "Gateway" "Node.js + Express" "Sprint 1" None not_started (Some "u0").

(** A module of [gateway] assigned to [dana]. *)
Definition module_of_u1 : object :=
  {[ "id" := VString "m1"; "project_id" := VString "p1";
     "module_name" := VString "Auth Service";
     "assigned_dev_id" := VString "u1"; "status" := VString "not_started" ]}.

(** [gateway] with its module; [dana] and [des] are its members. *)
Definition db : Database :=
  {| Store.users := [admin; dana; dee; pat; des];
     projects := [gateway];
     project_modules := [module_of_u1];
     project_members :=
       [ mkProjectMember "l1" (Some "p1") (Some "u1") "member";
         mkProjectMember "l2" (Some "p1") (Some "u4") "member" ] |}.

End Sample.

Import Sample.

(** Settles [profile_of] on a database that is written out. *)
Ltac one_profile :=
  repeat split;
  [ apply (bool_decide_unpack _); vm_compute; exact I
  | let u := fresh "u" in let Hu := fresh "Hu" in let Ha := fresh "Ha" in
    intros u Hu Ha;
    repeat (apply elem_of_cons in Hu as [->|Hu]; [done || discriminate|]);
    by apply elem_of_nil in Hu ].

(** * Properties *)

Import ModuleTable.

(** ** The field table *)

Section FieldTable.

Lemma fieldPermissions_roles :
  map_Forall (λ _ xs, xs ⊆ role_names) fieldPermissions.
Proof. apply (bool_decide_unpack _). vm_compute. exact I. Qed.

Lemma fieldPermissions_not_inherited :
  map_Forall (λ k _, k ∉ object_prototype_keys) fieldPermissions.
Proof. apply (bool_decide_unpack _). vm_compute. exact I. Qed.

Lemma carve_out_fields_own :
  ("dev_start_date" ∉ object_prototype_keys) ∧ ("self_qa_date" ∉ object_prototype_keys).
Proof. split; apply (bool_decide_unpack _); vm_compute; exact I. Qed.

Lemma carve_out_not_inherited field :
  field ∈ object_prototype_keys → carve_out field = false.
Proof.
  intros Hin. unfold carve_out.
  destruct carve_out_fields_own as [Hd Hq].
  destruct (bool_decide_reflect (field = "dev_start_date")) as [->|_]; [done|].
  by destruct (bool_decide_reflect (field = "self_qa_date")) as [->|_].
Qed.

(** On every field that does not collide with an inherited property the
    check returns, and what it returns is membership in the listed roles
    or, on the two carve-out fields, being the assignee. *)
Lemma canEditField_own (profile : User) (field : string) (module : object) :
  field ∉ object_prototype_keys →
  canEditField (Some profile) field module =
    Normal (bool_decide (user_role profile ∈ default [] (fieldPermissions !! field))
            || carve_out field
               && strict_eq_string (user_id profile) (module !! "assigned_dev_id")).
Proof.
  intros Hown. unfold canEditField, get. fold (carve_out field).
  destruct (fieldPermissions !! field) as [xs|] eqn:Hlook; simpl.
  - destruct (carve_out field); simpl; [done|]. by rewrite orb_false_r.
  - rewrite bool_decide_eq_false_2 by done. simpl.
    by destruct (carve_out field).
Qed.


Lemma canEditField_signed_out (field : string) (module : object) :
  canEditField None field module = Normal false.
Proof. done. Qed.

(** None of the cells of the table names an inherited property, so
    rendering a cell never throws. *)
Lemma rendered_fields_own :
  Forall (λ field, field ∉ object_prototype_keys) rendered_fields.
Proof. apply (bool_decide_unpack _). vm_compute. exact I. Qed.

Lemma renders_input_returns (profile : option User) (st : state) (field : string)
    (module : object) :
  field ∈ rendered_fields →
  ∃ shown, renders_input profile st field module = Normal shown.
Proof.
  intros Hfield. unfold renders_input. destruct profile as [profile|].
  - rewrite canEditField_own; [simpl; eauto|].
    by apply (proj1 (Forall_forall _ _) rendered_fields_own).
  - simpl. eauto.
Qed.

End FieldTable.

(** ** Field-level edit decisions *)

Section FieldDecisions.

(** C8: for an actor with one of the six roles, the [notes] field of every
    module is editable. *)
Theorem canEditField_notes (profile : User) (module : object) :
  user_role profile ∈ role_names →
  canEditField (Some profile) "notes" module = Normal true.
Proof.
  intros Hrole. rewrite canEditField_own
    by (apply (bool_decide_unpack _); vm_compute; exact I).
  replace (fieldPermissions !! "notes")
    with (Some ["admin"; "pm"; "dev"; "cto"; "lead"; "designer"])
    by (vm_compute; reflexivity).
  simpl. rewrite bool_decide_eq_true_2; [done|].
  unfold role_names in Hrole. set_unfold. tauto.
Qed.

Lemma canEditField_notes_witness :
  canEditField (Some (mkUser "u7" (Some "a7") "Lee" "lee@jeux.com" "lead"))
               "notes" module_of_u1 = Normal true.
Proof.
  apply (canEditField_notes (mkUser "u7" (Some "a7") "Lee" "lee@jeux.com" "lead")).
  apply (bool_decide_unpack _). vm_compute. exact I.
Defined.

(** C1, at the input where the code departs from it: a developer who is
    not the assignee of the module is let through on [dev_start_date] and
    on [self_qa_date], because the role [dev] is itself listed for both
    fields. *)
Theorem canEditField_unassigned_dev :
  user_role dee = "dev"
  ∧ module_of_u1 !! "assigned_dev_id" = Some (VString "u1")
  ∧ user_id dee ≠ "u1"
  ∧ canEditField (Some dee) "dev_start_date" module_of_u1 = Normal true
  ∧ canEditField (Some dee) "self_qa_date" module_of_u1 = Normal true.
Proof. repeat split; try (vm_compute; reflexivity). discriminate. Qed.

(** Outside the table: a pair of role and field that the table does not
    list is refused, unless the field is one of the two carve-out fields
    and the actor is the assignee. *)
Lemma canEditField_unlisted (profile : User) (field : string) (module : object) :
  field ∉ object_prototype_keys →
  user_role profile ∉ default [] (fieldPermissions !! field) →
  canEditField (Some profile) field module =
    Normal (carve_out field
            && strict_eq_string (user_id profile) (module !! "assigned_dev_id")).
Proof.
  intros Hown Hrole. rewrite canEditField_own by done.
  by rewrite bool_decide_eq_false_2.
Qed.

(** The assignee passes on both carve-out fields, whatever the role. *)
Lemma canEditField_assignee (profile : User) (field : string) (module : object) :
  carve_out field = true →
  module !! "assigned_dev_id" = Some (VString (user_id profile)) →
  canEditField (Some profile) field module = Normal true.
Proof.
  intros Hfield Hdev. rewrite canEditField_own.
  - rewrite Hfield, Hdev. simpl.
    rewrite (bool_decide_eq_true_2 (user_id profile = user_id profile)) by done.
    by rewrite orb_true_r.
  - intros Hin. apply carve_out_not_inherited in Hin. congruence.
Qed.

(** C4 as stated fails: an actor whose role is none of the six, but who is
    the assignee of the module, may edit [dev_start_date]. *)
Lemma canEditField_unknown_role_assignee :
  let intern := mkUser "u1" (Some "a1") "Ira" "ira@jeux.com" "intern" in
  (user_role intern ∉ role_names)
  ∧ canEditField (Some intern) "dev_start_date" module_of_u1 = Normal true.
Proof.
  split; [|vm_compute; reflexivity].
  apply (bool_decide_unpack _). vm_compute. exact I.
Qed.

(** C4, amended: for an actor whose role is none of the six the check
    returns normally on every field that is not named like an inherited
    property, and it refuses every such field except [dev_start_date] and
    [self_qa_date] of a module the actor is the assignee of. *)
Theorem canEditField_unknown_role (profile : User) (field : string) (module : object) :
  user_role profile ∉ role_names →
  field ∉ object_prototype_keys →
  canEditField (Some profile) field module =
    Normal (carve_out field
            && strict_eq_string (user_id profile) (module !! "assigned_dev_id")).
Proof.
  intros Hrole Hown. apply canEditField_unlisted; [done|].
  destruct (fieldPermissions !! field) as [xs|] eqn:Hlook; simpl; [|set_solver].
  intros Hin. apply Hrole. by apply (fieldPermissions_roles _ _ Hlook).
Qed.

Lemma canEditField_unknown_role_witness :
  canEditField (Some (mkUser "u9" (Some "a9") "Ona" "ona@jeux.com" "")) "status"
               module_of_u1 = Normal false.
Proof.
  apply (canEditField_unknown_role
           (mkUser "u9" (Some "a9") "Ona" "ona@jeux.com" "") "status" module_of_u1);
    apply (bool_decide_unpack _); vm_compute; exact I.
Defined.

End FieldDecisions.

(** ** Row-level policies *)

Section PolicyFacts.

Lemma sql_eq_true (a b : option string) :
  sql_eq a b = true ↔ ∃ x, a = Some x ∧ b = Some x.
Proof.
  destruct a as [x|], b as [y|]; simpl.
  - rewrite bool_decide_eq_true. split; [intros ->; eauto|].
    intros (z & Hx & Hy). congruence.
  - split; [done|]. by intros (z & _ & ?).
  - split; [done|]. by intros (z & ? & _).
  - split; [done|]. by intros (z & ? & _).
Qed.

Lemma sql_eq_Some (a : option string) (x : string) :
  sql_eq a (Some x) = true ↔ a = Some x.
Proof.
  rewrite sql_eq_true. split; [|eauto].
  intros (z & -> & Hz). congruence.
Qed.

Lemma exists_user_true (db : Database) (uid : string) (cond : User → bool) :
  exists_user db uid cond = true
  ↔ ∃ u, u ∈ Store.users db ∧ user_auth_id u = Some uid ∧ cond u = true.
Proof.
  unfold exists_user. rewrite existsb_exists. split.
  - intros (u & Hin & Hu). apply andb_true_iff in Hu as [Hauth Hcond].
    exists u. rewrite list_elem_of_In. by rewrite <- sql_eq_Some.
  - intros (u & Hin & Hauth & Hcond). exists u.
    rewrite <- list_elem_of_In. split; [done|].
    apply andb_true_iff. by rewrite sql_eq_Some.
Qed.

Lemma exists_user_profile (db : Database) (uid : string) (actor : User)
    (cond : User → bool) :
  profile_of db uid actor → exists_user db uid cond = cond actor.
Proof.
  intros (Hin & Hauth & Hone).
  destruct (cond actor) eqn:Hcond.
  - apply exists_user_true. eauto.
  - apply not_true_is_false. rewrite exists_user_true.
    intros (u & Hu & Huid & Hc). rewrite (Hone u Hu Huid) in Hc. congruence.
Qed.

Lemma is_member_true (db : Database) (pid : string) (u : User) :
  is_member db (Some pid) u = true
  ↔ ∃ m, m ∈ project_members db
         ∧ member_project_id m = Some pid
         ∧ member_user_id m = Some (user_id u).
Proof.
  unfold is_member. rewrite existsb_exists. split.
  - intros (m & Hin & Hm). apply andb_true_iff in Hm as [Hp Hu].
    exists m. rewrite list_elem_of_In. by rewrite <- !sql_eq_Some.
  - intros (m & Hin & Hp & Hu). exists m. rewrite <- list_elem_of_In.
    split; [done|]. apply andb_true_iff. by rewrite !sql_eq_Some.
Qed.

End PolicyFacts.

(** ** Reading and creating projects *)

Section Projects.

Lemma profile_of_dana : profile_of db "a1" dana.
Proof. one_profile. Qed.

Lemma profile_of_pat : profile_of db "a3" pat.
Proof. one_profile. Qed.

Lemma profile_of_des : profile_of db "a4" des.
Proof. one_profile. Qed.

(** C7: a project is readable by an actor whose role is admin, pm or cto,
    and by any other actor exactly when a membership row links the actor
    to the project; otherwise it is not. *)
Theorem projects_select_using_iff (db : Database) (uid : string) (actor : User)
    (project : Project) :
  profile_of db uid actor →
  projects_select_using db uid project = true
  ↔ user_role actor ∈ ["admin"; "pm"; "cto"]
    ∨ ∃ m, m ∈ project_members db
           ∧ member_project_id m = Some (project_id project)
           ∧ member_user_id m = Some (user_id actor).
Proof.
  intros Hprofile. unfold projects_select_using.
  rewrite (exists_user_profile _ _ _ _ Hprofile).
  rewrite orb_true_iff, is_member_true. unfold sql_in.
  by rewrite bool_decide_eq_true.
Qed.

Lemma projects_select_using_iff_witness :
  projects_select_using db "a1" gateway = true
  ↔ user_role dana ∈ ["admin"; "pm"; "cto"]
    ∨ ∃ m, m ∈ project_members db
           ∧ member_project_id m = Some (project_id gateway)
           ∧ member_user_id m = Some (user_id dana).
Proof. apply (projects_select_using_iff db "a1" dana gateway), profile_of_dana. Defined.

(** The same decision stated for a session, without asking that its
    profile row be the only one. *)
Lemma projects_select_using_session (db : Database) (uid : string) (project : Project) :
  projects_select_using db uid project = true
  ↔ ∃ u, u ∈ Store.users db ∧ user_auth_id u = Some uid
         ∧ (user_role u ∈ ["admin"; "pm"; "cto"]
            ∨ ∃ m, m ∈ project_members db
                   ∧ member_project_id m = Some (project_id project)
                   ∧ member_user_id m = Some (user_id u)).
Proof.
  unfold projects_select_using. rewrite exists_user_true.
  split; intros (u & Hin & Hauth & Hu); exists u; (split; [done|]); (split; [done|]).
  - apply orb_true_iff in Hu. rewrite is_member_true in Hu. unfold sql_in in Hu.
    by rewrite bool_decide_eq_true in Hu.
  - apply orb_true_iff. rewrite is_member_true. unfold sql_in.
    by rewrite bool_decide_eq_true.
Qed.

(** The membership rows the policies look for are rows the session may
    read: the policies of [project_members] hide none of them. *)
Lemma is_member_visible (db : Database) (uid : string) (u : User) (m : ProjectMember) :
  u ∈ Store.users db → user_auth_id u = Some uid →
  member_user_id m = Some (user_id u) →
  project_members_select_using db uid m = true.
Proof.
  intros Hin Hauth Hm. unfold project_members_select_using.
  apply orb_true_iff. left. apply exists_user_true. exists u.
  repeat split; [done..|]. apply orb_true_iff. right. by apply sql_eq_Some.
Qed.

(** A session without a profile row reads no project. *)
Lemma projects_select_using_no_profile (db : Database) (uid : string)
    (project : Project) :
  (∀ u, u ∈ Store.users db → user_auth_id u ≠ Some uid) →
  projects_select_using db uid project = false.
Proof.
  intros Hnone. apply not_true_is_false. unfold projects_select_using.
  rewrite exists_user_true. intros (u & Hin & Hauth & _). by apply (Hnone u).
Qed.

(** The store lets exactly an admin insert a project. *)
Lemma projects_insert_check_admin (db : Database) (uid : string) (actor : User)
    (project : Project) :
  profile_of db uid actor →
  projects_insert_check db uid project = bool_decide (user_role actor = "admin").
Proof.
  intros Hprofile. unfold projects_insert_check.
  by rewrite (exists_user_profile _ _ _ _ Hprofile).
Qed.

(** The page guard renders the form for exactly an admin. *)
Lemma renderPage_add_project (profile : User) (selected : option string) :
  App.renderPage (Some profile) false "add-project" selected
  = if bool_decide (user_role profile = "admin")
    then App.Children App.AddProject else App.Fallback.
Proof.
  unfold App.renderPage, App.RoleProtected. simpl.
  destruct (bool_decide_reflect (user_role profile = "admin")) as [->|Hne]; [done|].
  rewrite bool_decide_eq_false_2; [done|]. set_unfold. tauto.
Qed.

(** The sidebar lists the entry for an admin and for a pm. *)
Lemma filteredItems_add_project (profile : User) :
  "add-project" ∈ Sidebar.id <$> Sidebar.filteredItems (Some profile)
  ↔ user_role profile ∈ ["admin"; "pm"].
Proof.
  unfold Sidebar.filteredItems, Sidebar.menuItems, Sidebar.offered.
  rewrite list_elem_of_fmap. split.
  - intros (item & Hid & Hin). apply list_elem_of_filter in Hin as [Hoff Hin].
    apply bool_decide_eq_true in Hoff.
    repeat (apply elem_of_cons in Hin as [->|Hin]; [done || discriminate|]).
    by apply elem_of_nil in Hin.
  - intros Hrole. exists (Sidebar.mkItem "add-project" "Add Project" ["admin"; "pm"]).
    split; [done|]. apply list_elem_of_filter. split.
    + by apply bool_decide_eq_true.
    + set_unfold. tauto.
Qed.

(** C6, at the input where the code departs from it: for a pm the sidebar
    offers "Add Project", while the page guard, the button of the project
    list and the insert policy of the store all refuse a pm; a pm who
    follows the entry lands on "Access Denied". *)
Theorem add_project_offered_to_pm :
  user_role pat = "pm"
  ∧ "add-project" ∈ Sidebar.id <$> Sidebar.filteredItems (Some pat)
  ∧ App.renderPage (Some pat) false "add-project" None = App.Fallback
  ∧ App.AppContent (Some "a3") (Some pat) false "signin" "add-project" None
    = App.Shell (Sidebar.filteredItems (Some pat)) App.Fallback
  ∧ App.shows_add_project_button (Some pat) = false
  ∧ projects_insert_check db "a3" gateway = false.
Proof.
  split; [done|]. split; [|by vm_compute].
  apply (bool_decide_unpack _). vm_compute. exact I.
Qed.

End Projects.

(** ** The module table against the store *)

Section ModuleUpdates.

(** Whoever the store lets update a module row has one of the six roles,
    so the application lets them edit at least [notes]. *)
Lemma project_modules_update_using_notes (db : Database) (uid : string)
    (actor : User) (row : object) :
  profile_of db uid actor →
  project_modules_update_using db uid row = true →
  canEditField (Some actor) "notes" row = Normal true.
Proof.
  intros Hprofile. unfold project_modules_update_using.
  rewrite (exists_user_profile _ _ _ _ Hprofile). intros Hpolicy.
  rewrite canEditField_own by (apply (bool_decide_unpack _); vm_compute; exact I).
  replace (fieldPermissions !! "notes")
    with (Some ["admin"; "pm"; "dev"; "cto"; "lead"; "designer"])
    by (vm_compute; reflexivity).
  simpl. rewrite bool_decide_eq_true_2; [done|].
  unfold sql_in in Hpolicy.
  repeat (apply orb_true_iff in Hpolicy as [Hpolicy|Hpolicy]);
    repeat (apply andb_true_iff in Hpolicy as [Hpolicy _]);
    apply bool_decide_eq_true in Hpolicy; set_unfold; tauto.
Qed.

(** C2, at the inputs where the two layers part: a pm who is not a member
    of the project and a dev who is not the assignee are let through by
    the field table ([eta], [status], [notes]) and turned away by the
    update policy of the store; a designer is refused [module_name] by the
    field table, yet the store applies the designer's update of that very
    column. *)
Theorem module_update_layers_differ :
  (canEditField (Some pat) "eta" module_of_u1 = Normal true
   ∧ project_modules_update_using db "a3" module_of_u1 = false)
  ∧ (canEditField (Some dee) "status" module_of_u1 = Normal true
     ∧ canEditField (Some dee) "notes" module_of_u1 = Normal true
     ∧ project_modules_update_using db "a2" module_of_u1 = false)
  ∧ (canEditField (Some des) "module_name" module_of_u1 = Normal false
     ∧ project_modules_update_using db "a4" module_of_u1 = true
     ∧ module_of_u1 !! "module_name" = Some (VString "Auth Service")
     ∧ (db' ← update_project_modules db "a4" "2025-08-05T12:00:00Z"
                {[ "module_name" := VString "Renamed" ]} "m1";
        row ← head (project_modules db');
        row !! "module_name") = Some (VString "Renamed")).
Proof. repeat split; vm_compute; reflexivity. Qed.

End ModuleUpdates.

(** ** User records *)

Section Users.

(** The update policy sees nothing but the row's own identity: a session
    cannot touch the row of another identity, whatever its role. *)
Lemma update_users_other (db : Database) (uid target name role : string) (row : User) :
  row ∈ Store.users db →
  user_auth_id row ≠ Some uid →
  row ∈ Store.users (update_users db uid target name role).
Proof.
  intros Hin Hother. unfold update_users. simpl.
  apply list_elem_of_fmap. exists row. split; [|done].
  unfold users_update_using.
  destruct (sql_eq (user_auth_id row) (Some uid)) eqn:Heq.
  - by apply sql_eq_Some in Heq.
  - by rewrite andb_false_r.
Qed.

(** The member screen is rendered for an admin only. *)
Lemma renderPage_members (profile : User) (selected : option string) :
  App.renderPage (Some profile) false "members" selected
  = if bool_decide (user_role profile = "admin")
    then App.Children App.Members else App.Fallback.
Proof.
  unfold App.renderPage, App.RoleProtected. simpl.
  destruct (bool_decide_reflect (user_role profile = "admin")) as [->|Hne]; [done|].
  rewrite bool_decide_eq_false_2; [done|]. set_unfold. tauto.
Qed.




(** The member screen at work. The admin saves a new role for another user
    and the store leaves that row as it was; the admin's own row does
    follow the screen; deleting goes through for the admin and not for a
    developer. *)
Example member_screen_against_store :
  (App.renderPage (Some admin) false "members" None = App.Children App.Members
   ∧ rls_update (users_update_using "a0") dee
       (mkUser "u2" (Some "a2") "Dee" "dee@jeux.com" "lead") = Skipped
   ∧ Store.users
       (Members.handleSaveUser db "a0"
          (Members.changeRole "lead" (Members.handleEditUser dee Members.initial)))
     = Store.users db)
  ∧ Store.users
      (Members.handleSaveUser db "a0"
         (Members.changeName "Root" (Members.handleEditUser admin Members.initial)))
    = [mkUser "u0" (Some "a0") "Root" "admin@jeux.com" "admin"; dana; dee; pat; des]
  ∧ Store.users (Members.handleDeleteUser db "a1" "u2") = Store.users db
  ∧ Store.users (Members.handleDeleteUser db "a0" "u2") = [admin; dana; pat; des].
Proof. repeat split; vm_compute; reflexivity. Qed.

End Users.

(** ** Deleting a project *)

Section Cascade.








(** The scenario of the specification: project, module and membership
    link are there before the deletion and gone after it. *)
Example delete_gateway :
  project_modules db = [module_of_u1]
  ∧ length (project_members db) = 2
  ∧ projects (delete_projects db "p1") = []
  ∧ project_modules (delete_projects db "p1") = []
  ∧ project_members (delete_projects db "p1") = [].
Proof. repeat split; vm_compute; reflexivity. Qed.

End Cascade.

(** ** Candidates for the assigned developer *)

Section Assignees.
Context (name_le : relation string) `{!RelDecision name_le}.

Lemma users_query_elem (db : Database) (c : Assignee) :
  c ∈ users_query name_le db
  ↔ ∃ u, u ∈ Store.users db ∧ c = assignee_of u
         ∧ (user_role u = "dev" ∨ user_role u = "lead").
Proof.
  unfold users_query. rewrite merge_sort_Permutation, list_elem_of_fmap.
  split.
  - intros (u & -> & Hu). apply list_elem_of_filter in Hu as [[_ Hrole] Hu].
    exists u. repeat split; [done|]. unfold sql_in in Hrole.
    apply bool_decide_eq_true in Hrole. set_unfold. tauto.
  - intros (u & Hu & -> & Hrole). exists u. split; [done|].
    apply list_elem_of_filter. repeat split; [|done]. unfold sql_in.
    apply bool_decide_eq_true. set_unfold. tauto.
Qed.

(** C10: every candidate the editor offers for [assigned_dev_id] is a user
    whose role is dev or lead; a user of any other role is not among the
    candidates, and every option other than "Unassigned" carries the id
    of a dev or a lead. *)
Theorem assigned_dev_candidates (db : Database) (st : state) :
  let st' := fetchUsers (Some (users_query name_le db)) st in
  Forall (λ c, (assignee_role c = "dev" ∨ assignee_role c = "lead")
               ∧ ∃ u, u ∈ Store.users db ∧ c = assignee_of u) (users st')
  ∧ Forall (λ u, user_role u ∉ ["dev"; "lead"] → assignee_of u ∉ users st')
           (Store.users db)
  ∧ Forall (λ opt, opt = ("", "Unassigned")
                   ∨ ∃ u, u ∈ Store.users db ∧ opt.1 = user_id u
                          ∧ (user_role u = "dev" ∨ user_role u = "lead"))
           (assigned_dev_options st').
Proof.
  simpl. split; [|split].
  - apply Forall_forall. intros c Hc.
    apply users_query_elem in Hc as (u & Hu & -> & Hrole). eauto.
  - apply Forall_forall. intros u _ Hrole Hc.
    apply users_query_elem in Hc as (u' & _ & Heq & Hrole').
    apply Hrole. replace (user_role u) with (user_role u').
    + set_unfold. tauto.
    + change (assignee_role (assignee_of u') = assignee_role (assignee_of u)).
      by rewrite Heq.
  - unfold assigned_dev_options. simpl. apply Forall_cons. split; [by left|].
    apply Forall_fmap, Forall_forall. intros c Hc. right.
    apply users_query_elem in Hc as (u & Hu & -> & Hrole). eauto.
Qed.

(** Before the first answer, and after a failed request, the list is what
    it was; it starts empty. *)
Lemma fetchUsers_failed (st : state) : fetchUsers None st = st.
Proof. done. Qed.

Lemma assigned_dev_options_initial :
  assigned_dev_options initial = [("", "Unassigned")].
Proof. done. Qed.

End Assignees.

(** The schema asks nothing of the role of an assignee: a module assigned
    to the admin satisfies every foreign key. *)
Example admin_assignee_allowed :
  let row : object := <["assigned_dev_id" := VString "u0"]> module_of_u1 in
  user_role admin = "admin"
  ∧ column row "assigned_dev_id" = Some (user_id admin)
  ∧ live_user db (column row "assigned_dev_id").
Proof.
  split; [done|]. split; [vm_compute; reflexivity|].
  intros uid Huid. vm_compute in Huid. injection Huid as <-.
  exists admin. split; [by left | done].
Qed.

(** ** Saving an edited module *)

Section SaveModule.

Lemma foldl_onChange_editingId (changes : list (string * string)) (st : state) :
  editingId (foldl onChange st changes) = editingId st.
Proof.
  revert st. induction changes as [|change changes IH]; intros st; [done|].
  simpl. by rewrite IH.
Qed.




(** A column the payload does not name keeps the stored value. *)
Lemma set_columns_unnamed (payload row : object) (field : string) :
  payload !! field = None →
  set_columns payload row !! field = row !! field.
Proof.
  intros Hpayload. unfold set_columns. apply lookup_union_r.
  apply map_lookup_filter_None. by left.
Qed.




(** Two editors of one module: the admin opens the row, somebody else
    renames the module, the admin changes [status] and saves. The stored
    name is back to what the admin's screen held. *)
Example lost_update :
  let renamed : object := <["module_name" := VString "Login"]> module_of_u1 in
  let db1 : Database :=
    {| Store.users := Store.users db; projects := projects db;
       project_modules := [renamed]; project_members := project_members db |} in
  let st := foldl onChange (handleEditModule module_of_u1 initial)
                  [("status", "in_progress")] in
  match handleSaveModule "2025-08-05T12:00:00Z" st with
  | [Update _ payload id] =>
    row ← update_project_modules_row db1 "a0" "2025-08-05T12:00:01Z" payload id renamed;
    Some (row !! "module_name", row !! "status", row !! "updated_at")
  | _ => None
  end
  = Some (Some (VString "Auth Service"), Some (VString "in_progress"),
          Some (VString "2025-08-05T12:00:01Z")).
Proof. vm_compute. reflexivity. Qed.

End SaveModule.

(** * Further properties *)

(** ** The field check on every input *)

Section FieldCheck.


Lemma fieldPermissions_admin :
  map_Forall (λ _ xs, "admin" ∈ xs) fieldPermissions.
Proof. apply (bool_decide_unpack _). vm_compute. exact I. Qed.

(** An admin may edit every field the table lists, on every module. *)
Theorem canEditField_admin (profile : User) (field : string) (module : object) :
  user_role profile = "admin" →
  is_Some (fieldPermissions !! field) →
  canEditField (Some profile) field module = Normal true.
Proof.
  intros Hrole [xs Hxs]. rewrite canEditField_own.
  - rewrite Hxs, Hrole. simpl.
    by rewrite (bool_decide_eq_true_2 _ (fieldPermissions_admin _ _ Hxs)).
  - exact (fieldPermissions_not_inherited _ _ Hxs).
Qed.

Lemma canEditField_admin_witness :
  canEditField (Some admin) "cto_review_status" module_of_u1 = Normal true.
Proof.
  apply (canEditField_admin admin "cto_review_status" module_of_u1).
  - reflexivity.
  - apply (bool_decide_unpack _). vm_compute. exact I.
Defined.

End FieldCheck.

(** ** Editing sessions of the module table *)

Section EditSessions.

Lemma foldl_onChange_editData (changes : list (string * string)) (st st' : state) :
  editData st = editData st' →
  editData (foldl onChange st changes) = editData (foldl onChange st' changes).
Proof.
  revert st st'. induction changes as [|change changes IH]; intros st st' Heq; [done|].
  cbn [foldl]. apply IH. unfold onChange. cbn [editData]. by rewrite Heq.
Qed.

(** What is saved depends on nothing but the module that was opened last
    and the inputs made since: edits of a row that was cancelled, or of any
    earlier session, never reach the payload. *)
Theorem handleSaveModule_fresh_session (module : object)
    (changes : list (string * string)) (now : string) (st st' : state) :
  handleSaveModule now (foldl onChange (handleEditModule module st) changes)
  = handleSaveModule now (foldl onChange (handleEditModule module st') changes).
Proof.
  unfold handleSaveModule. rewrite !foldl_onChange_editingId.
  by rewrite (foldl_onChange_editData changes (handleEditModule module st)
                (handleEditModule module st')).
Qed.

End EditSessions.

(** ** Updates of module rows at the store *)

Section ModuleUpdateFrame.







End ModuleUpdateFrame.

(** ** Deleting a user *)

Section UserCascade.








End UserCascade.

(** ** Editing a project *)

Section ProjectEdits.
Import ProjectDetail.

Lemma canEditProject_policy (db : Database) (uid : string) (actor : User) (p : Project) :
  profile_of db uid actor →
  canEditProject (Some actor) = projects_update_using db uid p.
Proof.
  intros Hprofile. unfold projects_update_using.
  rewrite (exists_user_profile _ _ _ _ Hprofile). unfold canEditProject, sql_in.
  destruct (bool_decide_reflect (user_role actor = "admin")) as [Ha|Ha];
    destruct (bool_decide_reflect (user_role actor = "pm")) as [Hp|Hp]; cbn [orb];
    symmetry; (apply bool_decide_eq_true_2 || apply bool_decide_eq_false_2);
    set_unfold; tauto.
Qed.

(** The "Edit Project" button is shown to exactly the sessions whose update
    the store lets through, and saving from any other session leaves the
    projects as they are. *)
Theorem canEditProject_matches_policy (db : Database) (uid : string) (actor : User)
    (p : Project) :
  profile_of db uid actor →
  canEditProject (Some actor) = projects_update_using db uid p
  ∧ (canEditProject (Some actor) = false →
     rls_update (projects_update_using db uid) p p = Skipped).
Proof.
  intros Hprofile. pose proof (canEditProject_policy db uid actor p Hprofile) as Heq.
  split; [done|]. intros Hno. unfold rls_update. by rewrite <- Heq, Hno.
Qed.

Lemma canEditProject_matches_policy_witness :
  canEditProject (Some dana) = projects_update_using db "a1" gateway
  ∧ (canEditProject (Some dana) = false →
     rls_update (projects_update_using db "a1") gateway gateway = Skipped).
Proof. apply (canEditProject_matches_policy db "a1" dana gateway), profile_of_dana. Defined.

End ProjectEdits.

(** ** The sign-up form *)

Section SignUpRoles.
Import SignUp.

(** The role select of the sign-up form is never empty once the request is
    over: an answer with roles is shown as it is, and every other outcome
    falls back to the six built-in roles, the very names the migrations
    insert. *)
Theorem fetchRoles_never_empty (r : response) :
  fetchRoles r ≠ []
  ∧ (∀ data, data ≠ [] → fetchRoles (Data (Some data)) = data)
  ∧ (r = Threw ∨ r = Error ∨ r = Data None ∨ r = Data (Some []) →
     fetchRoles r = fallback ∧ SignUp.name <$> fetchRoles r = role_names).
Proof.
  split; [|split].
  - by destruct r as [| |[[|role rest]|]].
  - by intros [|role rest].
  - by intros [->|[->|[->| ->]]].
Qed.

End SignUpRoles.

(** ** The sidebar against the page guards *)

Section Navigation.

Lemma filteredItems_offered (profile : User) (page : string) :
  page ∈ Sidebar.id <$> Sidebar.filteredItems (Some profile)
  ↔ ∃ item, item ∈ Sidebar.menuItems ∧ Sidebar.id item = page
            ∧ user_role profile ∈ Sidebar.roles item.
Proof.
  unfold Sidebar.filteredItems. rewrite list_elem_of_fmap. split.
  - intros (item & -> & Hitem). apply list_elem_of_filter in Hitem as [Hoff Hin].
    exists item. repeat split; [done|]. by apply bool_decide_eq_true in Hoff.
  - intros (item & Hin & <- & Hrole). exists item. split; [done|].
    apply list_elem_of_filter. split; [|done]. by apply bool_decide_eq_true.
Qed.

Lemma menu_entry (profile : User) (page label : string) (roles : list string) :
  Sidebar.mkItem page label roles ∈ Sidebar.menuItems →
  (∀ item, item ∈ Sidebar.menuItems → Sidebar.id item = page →
           Sidebar.roles item = roles) →
  page ∈ Sidebar.id <$> Sidebar.filteredItems (Some profile)
  ↔ user_role profile ∈ roles.
Proof.
  intros Hin Hroles. rewrite filteredItems_offered. split.
  - intros (item & Hitem & Hid & Hrole). by rewrite <- (Hroles item Hitem Hid).
  - intros Hrole. by exists (Sidebar.mkItem page label roles).
Qed.

Ltac menu_entry_of label roles :=
  apply (menu_entry _ _ label roles);
  [ unfold Sidebar.menuItems; rewrite !elem_of_cons;
    repeat (first [left; reflexivity | right])
  | let item := fresh "item" in let Hin := fresh "Hin" in let Hid := fresh "Hid" in
    intros item Hin Hid; unfold Sidebar.menuItems in Hin;
    repeat (apply elem_of_cons in Hin as [->|Hin]; [done || discriminate Hid|]);
    by apply elem_of_nil in Hin ].

Lemma RoleProtected_children (profile : User) (allowedRoles : list string)
    (children : App.page) :
  App.RoleProtected (Some profile) false allowedRoles children = App.Children children
  ↔ user_role profile ∈ allowedRoles.
Proof.
  unfold App.RoleProtected.
  destruct (bool_decide_reflect (user_role profile ∈ allowedRoles)); split; done.
Qed.

(** For "Members" and "Analytics" the sidebar shows the entry to exactly
    the users for whom the page behind it is rendered; "Dashboard" and
    "Projects" are rendered for everybody and offered to the six roles. *)
Theorem sidebar_matches_guards (profile : User) (selected : option string) :
  ("members" ∈ Sidebar.id <$> Sidebar.filteredItems (Some profile)
   ↔ App.renderPage (Some profile) false "members" selected = App.Children App.Members)
  ∧ ("analytics" ∈ Sidebar.id <$> Sidebar.filteredItems (Some profile)
     ↔ App.renderPage (Some profile) false "analytics" selected
       = App.Children App.Analytics)
  ∧ ("dashboard" ∈ Sidebar.id <$> Sidebar.filteredItems (Some profile)
     ↔ user_role profile ∈ role_names)
  ∧ ("projects" ∈ Sidebar.id <$> Sidebar.filteredItems (Some profile)
     ↔ user_role profile ∈ role_names)
  ∧ App.renderPage (Some profile) false "dashboard" selected = App.Children App.Dashboard
  ∧ App.renderPage (Some profile) false "projects" selected = App.Children App.Projects.
Proof.
  split; [|split; [|split; [|split; [|split]]]].
  - change (App.renderPage (Some profile) false "members" selected)
      with (App.RoleProtected (Some profile) false ["admin"] App.Members).
    rewrite RoleProtected_children. menu_entry_of "Members" ["admin"].
  - change (App.renderPage (Some profile) false "analytics" selected)
      with (App.RoleProtected (Some profile) false ["admin"; "pm"; "cto"] App.Analytics).
    rewrite RoleProtected_children. menu_entry_of "Analytics" ["admin"; "pm"; "cto"].
  - menu_entry_of "Dashboard" ["admin"; "dev"; "pm"; "cto"; "lead"; "designer"].
  - menu_entry_of "Projects" ["admin"; "dev"; "pm"; "cto"; "lead"; "designer"].
  - reflexivity.
  - reflexivity.
Qed.

End Navigation.

(** ** The project form *)

Section ProjectForm.
Import AddProject.

(** Ticking members never selects a user twice: a tick on an unselected
    user selects that user, a tick on a selected one unselects, and no
    other selection changes. *)
Theorem toggleMember_selection (userId : string) (prev : formData) :
  NoDup (members prev) →
  NoDup (members (toggleMember userId prev))
  ∧ (userId ∈ members (toggleMember userId prev) ↔ userId ∉ members prev)
  ∧ (∀ other, other ≠ userId →
              other ∈ members (toggleMember userId prev) ↔ other ∈ members prev)
  ∧ title (toggleMember userId prev) = title prev
  ∧ stack (toggleMember userId prev) = stack prev
  ∧ sprint (toggleMember userId prev) = sprint prev
  ∧ notes (toggleMember userId prev) = notes prev
  ∧ status (toggleMember userId prev) = status prev.
Proof.
  intros Hnodup. unfold toggleMember. cbn [members title stack sprint notes status].
  destruct (bool_decide_reflect (userId ∈ members prev)) as [Hin|Hin].
  - repeat split; try done.
    + by apply NoDup_filter.
    + intros Hf. by apply list_elem_of_filter in Hf as [? _].
    + intros Hf. by apply list_elem_of_filter in Hf as [_ ?].
    + intros Ho. by apply list_elem_of_filter.
  - repeat split; try done.
    + apply NoDup_app. repeat split; [done| |apply NoDup_singleton].
      intros x Hx Hx'. apply list_elem_of_singleton in Hx' as ->. done.
    + intros _. apply elem_of_app. right. by left.
    + intros Ho. apply elem_of_app in Ho as [Ho|Ho]; [done|].
      by apply list_elem_of_singleton in Ho.
    + intros Ho. apply elem_of_app. by left.
Qed.

Lemma toggleMember_selection_witness :
  let prev := toggleMember "u1" formData_initial in
  NoDup (members (toggleMember "u1" prev))
  ∧ ("u1" ∈ members (toggleMember "u1" prev) ↔ "u1" ∉ members prev)
  ∧ (∀ other, other ≠ "u1" →
              other ∈ members (toggleMember "u1" prev) ↔ other ∈ members prev)
  ∧ title (toggleMember "u1" prev) = title prev
  ∧ stack (toggleMember "u1" prev) = stack prev
  ∧ sprint (toggleMember "u1" prev) = sprint prev
  ∧ notes (toggleMember "u1" prev) = notes prev
  ∧ status (toggleMember "u1" prev) = status prev.
Proof.
  apply (toggleMember_selection "u1" (toggleMember "u1" formData_initial)).
  apply (bool_decide_unpack _). vm_compute. exact I.
Defined.

End ProjectForm.

(** ** Saving in the member screen *)

Section MemberSaves.


End MemberSaves.
